(** * Product search over Elasticsearch: request shapes, dispatch and rendering

    A shallow embedding of [app.py]: the four search functions
    ([bm25_search], [vector_search], [hybrid_rrf_search],
    [full_pipeline_search]), the comparison block and the single-method
    block of the Streamlit script, followed by the properties of the
    request bodies, of the order of the external calls and of the way a
    hit is rendered.

    Conventions.
    - A Python value is a [pyval]; a dict is a [gmap string pyval].
    - A Python [str] is a [string], one [ascii] standing for one character;
      literals holding pictographs are written in UTF-8.
    - The embedding model, the Elasticsearch client, Streamlit's image call
      and Python's [str] on floats, lists and dicts are the fields of a
      [World].  Each external call sees the history of the run so far, so a
      collaborator may answer the same call differently at different times.
    - Wall-clock readings are not modelled: a latency metric is recorded as
      [MElapsed].  Layout calls that write no text are recorded as [Columns].
    - A computation is a function from the history to the extended history
      and either a value or the exception that ended it. *)

From Stdlib Require Import ZArith NArith QArith String Ascii List Bool Lia.
From stdpp Require Import gmap strings list fin_maps pretty.

Set Warnings "-register-all".
Local Open Scope string_scope.
Local Open Scope Z_scope.

(** ** Python values *)

(** A double: [(-1)^neg * m * 2^e], an infinity, or a NaN. *)
Inductive pyfloat : Type :=
| FFinite (neg : bool) (m : N) (e : Z)
| FInf (neg : bool)
| FNaN.

Inductive pyval : Type :=
| PNone
| PBool (b : bool)
| PInt (z : Z)
| PFloat (f : pyfloat)
| PStr (s : string)
| PList (l : list pyval)
| PDict (d : gmap string pyval).

Abbreviation pydict := (gmap string pyval).

(** ** Exceptions and results *)

Inductive exn : Type :=
| KeyError (key : string)
| TypeError
| AttributeError
| ValueError
| OverflowError
| External (name : string).

Inductive result (A : Type) : Type :=
| Ok (a : A)
| Raise (e : exn).

Arguments Ok {A} a.
Arguments Raise {A} e.

(** ** The history of a run *)

Inductive metric_value : Type :=
| MElapsed              (* f"{(time.time() - start) * 1000:.0f}ms" *)
| MInt (n : Z)
| MStr (s : string).

Inductive ui_call : Type :=
| Markdown (text : string)
| Caption (text : string)
| Metric (label : string) (value : metric_value)
| Success (text : string)
| Write (text : string)
| Image (url : string) (width : Z)
| Spinner (text : string)
| Columns (weights : list Z).

Inductive event : Type :=
| Encode (text : string)                       (* model.encode(text) *)
| Search (index : string) (body : pydict)      (* client.search(index=, body=) *)
| UI (container : string) (call : ui_call).    (* st.* / colN.* *)

Abbreviation history := (list event).

(** ** The external collaborators *)

Record World : Type := {
  (** [model.encode(text).tolist()] *)
  model_encode : history -> string -> result pyval;
  (** [client.search(index=index, body=body)] *)
  client_search : history -> string -> pydict -> result pyval;
  (** whether [st.image(url, width=120)] raises *)
  st_image_raises : history -> string -> bool;
  (** [str(v)] for a float, a list or a dict *)
  builtin_str : pyval -> string
}.

(** ** Computations *)

Definition M (A : Type) : Type := history -> history * result A.

Definition ret {A} (a : A) : M A := fun h => (h, Ok a).

Definition bind {A B} (m : M A) (f : A -> M B) : M B :=
  fun h =>
    match m h with
    | (h', Ok a) => f a h'
    | (h', Raise e) => (h', Raise e)
    end.

Definition lift {A} (r : result A) : M A := fun h => (h, r).

Definition emit (ev : event) : M unit := fun h => ((h ++ [ev])%list, Ok tt).

Notation "'let*' x ':=' m 'in' f" := (bind m (fun x => f))
  (at level 10, x name, m at level 100, f at level 200).
Notation "m ';;' f" := (bind m (fun _ => f))
  (at level 100, f at level 200, right associativity).

(** Run a computation from the empty history. *)
Definition run {A} (m : M A) : history * result A := m [].

(** ** Python operations used by the script *)

(** [v[key]] for a string key. *)
Definition subscript (v : pyval) (key : string) : result pyval :=
  match v with
  | PDict d =>
      match d !! key with
      | Some x => Ok x
      | None => Raise (KeyError key)
      end
  | _ => Raise TypeError
  end.

(** [v.get(key, dflt)]; [v.get(key)] is [get v key PNone]. *)
Definition get (v : pyval) (key : string) (dflt : pyval) : result pyval :=
  match v with
  | PDict d => Ok (default dflt (d !! key))
  | _ => Raise AttributeError
  end.

(** [v[:n]].  A dict raises here as well (TypeError, or KeyError on
    interpreters whose slices hash). *)
Definition slice_to (n : nat) (v : pyval) : result pyval :=
  match v with
  | PStr s => Ok (PStr (substring 0 n s))
  | PList l => Ok (PList (take n l))
  | _ => Raise TypeError
  end.

(** [v != s] for a string literal [s]. *)
Definition ne_str (v : pyval) (s : string) : bool :=
  match v with
  | PStr t => negb (String.eqb t s)
  | _ => true
  end.

(** [bool(v)]. *)
Definition truthy (v : pyval) : bool :=
  match v with
  | PNone => false
  | PBool b => b
  | PInt z => negb (z =? 0)
  | PFloat (FFinite _ m _) => negb (m =? 0)%N
  | PFloat _ => true
  | PStr s => negb (String.eqb s "")
  | PList l => match l with [] => false | _ => true end
  | PDict d => negb (bool_decide (d = ∅))
  end.

(** [len(v)]. *)
Definition py_len (v : pyval) : result Z :=
  match v with
  | PStr s => Ok (Z.of_nat (String.length s))
  | PList l => Ok (Z.of_nat (length l))
  | PDict d => Ok (Z.of_nat (size d))
  | _ => Raise TypeError
  end.

(** The items a [for] loop over [v] visits.  The keys of a dict come in the
    map's order, not in insertion order; every loop of the script subscripts
    its item with a string first, which fails alike on any key. *)
Definition py_iter (v : pyval) : result (list pyval) :=
  match v with
  | PList l => Ok l
  | PStr s => Ok (map (fun c => PStr (String c "")) (list_ascii_of_string s))
  | PDict d => Ok (map (fun kv => PStr kv.1) (map_to_list d))
  | _ => Raise TypeError
  end.

(** [img.startswith("http")]. *)
Definition startswith (v : pyval) (p : string) : result bool :=
  match v with
  | PStr s => Ok (String.prefix p s)
  | _ => Raise AttributeError
  end.

(** *** Fixed-point formatting, [format(v, ".<p>f")] *)

(** [float(z)]: the nearest double, ties to even. *)
Definition float_of_int (z : Z) : result pyfloat :=
  let n := Z.abs_N z in
  let neg := z <? 0 in
  if (n <? 2 ^ 53)%N then Ok (FFinite neg n 0)
  else
    let e := (N.log2 n - 52)%N in
    let q := N.shiftr n e in
    let r := N.land n (N.ones e) in
    let half := N.shiftl 1 (e - 1) in
    let q' := (if (half <? r) || ((r =? half) && N.odd q) then q + 1 else q)%N in
    if (2 ^ 1024 <=? q' * 2 ^ e)%N then Raise OverflowError
    else Ok (FFinite neg q' (Z.of_N e)).

Definition round_half_even (num den : N) : N :=
  let q := (num / den)%N in
  let r := (num mod den)%N in
  (if (den <? 2 * r) || ((2 * r =? den) && N.odd q) then q + 1 else q)%N.

(** [m * 2^e * 10^p], rounded to an integer. *)
Definition scaled (p : nat) (m : N) (e : Z) : N :=
  if 0 <=? e then (m * 2 ^ Z.to_N e * 10 ^ N.of_nat p)%N
  else round_half_even (m * 10 ^ N.of_nat p) (2 ^ Z.to_N (- e)).

Fixpoint zeros (n : nat) : string :=
  match n with
  | O => ""
  | S n' => "0" ++ zeros n'
  end.

(** The decimal digits of [q / 10^p] with [p] digits after the point. *)
Definition fixed_digits (p : nat) (q : N) : string :=
  let s := pretty q in
  let s := zeros (S p - String.length s) ++ s in
  let i := (String.length s - p)%nat in
  match p with
  | O => s
  | _ => substring 0 i s ++ "." ++ substring i p s
  end.

Definition sign (neg : bool) : string := if neg then "-" else "".

Definition format_float (p : nat) (f : pyfloat) : string :=
  match f with
  | FNaN => "nan"
  | FInf neg => sign neg ++ "inf"
  | FFinite neg m e => sign neg ++ fixed_digits p (scaled p m e)
  end.

(** [f"{v:.<p>f}"]. *)
Definition format_f (p : nat) (v : pyval) : result string :=
  match v with
  | PFloat f => Ok (format_float p f)
  | PInt z =>
      match float_of_int z with
      | Ok f => Ok (format_float p f)
      | Raise e => Raise e
      end
  | PBool b => Ok (format_float p (FFinite false (if b then 1 else 0) 0))
  | PStr _ => Raise ValueError
  | _ => Raise TypeError
  end.

(** [str(v)], as an f-string interpolates [{v}]. *)
Definition py_str (w : World) (v : pyval) : string :=
  match v with
  | PStr s => s
  | PNone => "None"
  | PBool true => "True"
  | PBool false => "False"
  | PInt z => pretty z
  | _ => builtin_str w v
  end.

(** [for i, x in enumerate(xs, start): body i x]. *)
Fixpoint for_enumerate (body : Z -> pyval -> M unit) (start : Z)
    (xs : list pyval) : M unit :=
  match xs with
  | [] => ret tt
  | x :: xs' => body start x ;; for_enumerate body (start + 1) xs'
  end.

(** ** The search functions *)

Definition INDEX_NAME : string := "amazon_2020_bbq".

(** A dict literal. *)
Definition dict (items : list (string * pyval)) : pyval := PDict (list_to_map items).

(** The client and the model are module-level objects of the script; here
    they are the world [w] every function below is run in. *)
Section Script.

Variable w : World.

(** The two external calls, recorded in the history before they answer. *)
Definition encode (text : string) : M pyval :=
  fun h => ((h ++ [Encode text])%list, model_encode w h text).

Definition es_search (index : string) (body : pydict) : M pyval :=
  fun h => ((h ++ [Search index body])%list, client_search w h index body).

(** [response["hits"]["hits"]]. *)
Definition response_hits (response : pyval) : result pyval :=
  match subscript response "hits" with
  | Ok outer => subscript outer "hits"
  | Raise e => Raise e
  end.

Definition hits_of (response : pyval) : M pyval := lift (response_hits response).

Definition bm25_body (query : string) (k : Z) : pydict :=
  list_to_map [
    ("size", PInt k);
    ("query", dict [
      ("multi_match", dict [
        ("query", PStr query);
        ("fields", PList [PStr "product_name^3"; PStr "brand^2";
                          PStr "category^1.5"; PStr "document_text"]);
        ("type", PStr "best_fields")])]);
    ("_source", PList [PStr "product_name"; PStr "brand"; PStr "price";
                       PStr "category"; PStr "image_url"])].

Definition bm25_search (query : string) (k : Z) : M pyval :=
  let* response := es_search INDEX_NAME (bm25_body query k) in
  hits_of response.

Definition vector_body (query_vector : pyval) (k : Z) : pydict :=
  list_to_map [
    ("size", PInt k);
    ("knn", dict [
      ("field", PStr "embedding");
      ("query_vector", query_vector);
      ("k", PInt k);
      ("num_candidates", PInt 100)]);
    ("_source", PList [PStr "product_name"; PStr "brand"; PStr "price";
                       PStr "category"; PStr "image_url"])].

Definition vector_search (query : string) (k : Z) : M pyval :=
  let* query_vector := encode query in
  let* response := es_search INDEX_NAME (vector_body query_vector k) in
  hits_of response.

Definition hybrid_body (query : string) (query_vector : pyval) (k : Z) : pydict :=
  list_to_map [
    ("size", PInt k);
    ("retriever", dict [
      ("rrf", dict [
        ("retrievers", PList [
          dict [
            ("standard", dict [
              ("query", dict [
                ("multi_match", dict [
                  ("query", PStr query);
                  ("fields", PList [PStr "product_name^3"; PStr "brand^2";
                                    PStr "category^1.5"; PStr "document_text"])])])])];
          dict [
            ("knn", dict [
              ("field", PStr "embedding");
              ("query_vector", query_vector);
              ("k", PInt 50);
              ("num_candidates", PInt 100)])]]);
        ("rank_window_size", PInt 100)])]);
    ("_source", PList [PStr "product_name"; PStr "brand"; PStr "price";
                       PStr "category"; PStr "image_url"])].

Definition hybrid_rrf_search (query : string) (k : Z) : M pyval :=
  let* query_vector := encode query in
  let* response := es_search INDEX_NAME (hybrid_body query query_vector k) in
  hits_of response.

Definition full_pipeline_body (query : string) (query_vector : pyval) (k : Z) : pydict :=
  list_to_map [
    ("size", PInt k);
    ("retriever", dict [
      ("text_similarity_reranker", dict [
        ("retriever", dict [
          ("rrf", dict [
            ("retrievers", PList [
              dict [
                ("standard", dict [
                  ("query", dict [
                    ("multi_match", dict [
                      ("query", PStr query);
                      ("fields", PList [PStr "product_name^3"; PStr "brand^2";
                                        PStr "category^1.5"; PStr "document_text"])])])])];
              dict [
                ("knn", dict [
                  ("field", PStr "embedding");
                  ("query_vector", query_vector);
                  ("k", PInt 50);
                  ("num_candidates", PInt 100)])]]);
            ("rank_window_size", PInt 100)])]);
        ("field", PStr "document_text");
        ("inference_id", PStr "jina_reranker_v3");
        ("inference_text", PStr query);
        ("rank_window_size", PInt 50)])]);
    ("_source", PList [PStr "product_name"; PStr "brand"; PStr "price";
                       PStr "category"; PStr "image_url"])].

Definition full_pipeline_search (query : string) (k : Z) : M pyval :=
  let* query_vector := encode query in
  let* response := es_search INDEX_NAME (full_pipeline_body query query_vector k) in
  hits_of response.

(** ** The script: what one run does for the sidebar and text inputs *)

Inductive method : Type := FullPipeline | HybridRRF | VectorSemantic | BM25Keyword.

(** The option texts of the [selectbox]. *)
Definition method_label (m : method) : string :=
  match m with
  | FullPipeline => "Full Pipeline"
  | HybridRRF => "Hybrid RRF"
  | VectorSemantic => "Vector Semantic"
  | BM25Keyword => "BM25 Keyword"
  end.

(** [funcs[search_method]]. *)
Definition funcs (m : method) : string -> Z -> M pyval :=
  match m with
  | FullPipeline => full_pipeline_search
  | HybridRRF => hybrid_rrf_search
  | VectorSemantic => vector_search
  | BM25Keyword => bm25_search
  end.

Record Inputs : Type := {
  comparison_mode : bool;   (* the "Compare All Methods" checkbox *)
  search_method : method;   (* the selectbox, read only when the box is unticked *)
  num_results : Z;          (* the "Results" slider *)
  query : string            (* the text input *)
}.

(** [f"{s.get('price', 0):.2f}"] *)
Definition price_text (s : pyval) : result string :=
  match get s "price" (PInt 0) with
  | Ok p => format_f 2 p
  | Raise e => Raise e
  end.

(** One column of the comparison: title, timed search, latency, then one
    line and one caption per hit. *)
Definition comparison_column (col title : string)
    (search : string -> Z -> M pyval) (q : string) (k : Z) : M unit :=
  emit (UI col (Markdown title)) ;;
  let* res := search q k in
  emit (UI col (Metric "Latency" MElapsed)) ;;
  let* items := lift (py_iter res) in
  for_enumerate (fun i hit =>
    let* s := lift (subscript hit "_source") in
    let* name := lift (subscript s "product_name") in
    let* short := lift (slice_to 40 name) in
    emit (UI col (Markdown ("**" ++ pretty i ++ ".** " ++ py_str w short ++ "..."))) ;;
    let* amount := lift (price_text s) in
    emit (UI col (Caption ("$" ++ amount)))) 1 items.

Definition comparison (q : string) (k : Z) : M unit :=
  emit (UI "main" (Markdown "### 🔬 Method Comparison")) ;;
  emit (UI "main" (Columns [1; 1; 1; 1])) ;;
  comparison_column "col1" "**📝 BM25**" bm25_search q k ;;
  comparison_column "col2" "**🧠 Vector**" vector_search q k ;;
  comparison_column "col3" "**🔀 Hybrid**" hybrid_rrf_search q k ;;
  comparison_column "col4" "**🚀 Pipeline**" full_pipeline_search q k ;;
  emit (UI "main" (Markdown "---")) ;;
  emit (UI "main" (Success "💡 Full Pipeline reranks for maximum relevance!")).

(** *** The comparison, column by column *)

Definition COLUMNS : list (string * string * (string -> Z -> M pyval)) :=
  [("col1", "**📝 BM25**", bm25_search);
   ("col2", "**🧠 Vector**", vector_search);
   ("col3", "**🔀 Hybrid**", hybrid_rrf_search);
   ("col4", "**🚀 Pipeline**", full_pipeline_search)].

Definition comparison_header : M unit :=
  emit (UI "main" (Markdown "### 🔬 Method Comparison")) ;;
  emit (UI "main" (Columns [1; 1; 1; 1])).

Definition comparison_footer : M unit :=
  emit (UI "main" (Markdown "---")) ;;
  emit (UI "main" (Success "💡 Full Pipeline reranks for maximum relevance!")).

Fixpoint run_columns (q : string) (k : Z)
    (cols : list (string * string * (string -> Z -> M pyval))) : M unit :=
  match cols with
  | [] => ret tt
  | (col, title, search) :: rest =>
      comparison_column col title search q k ;; run_columns q k rest
  end.

(** The image cell of a result card: any exception of [st.image] is caught. *)
Definition image_cell (s : pyval) : M unit :=
  let* img := lift (get s "image_url" (PStr "")) in
  let* http := (if truthy img then lift (startswith img "http") else ret false) in
  if (http : bool) then
    fun h =>
      if st_image_raises w h (py_str w img)
      then emit (UI "col_img" (Write "🖼️")) h
      else emit (UI "col_img" (Image (py_str w img) 120)) h
  else emit (UI "col_img" (Write "🖼️")).

(** [s.get('brand', 'N/A') if s.get('brand') != 'nan' else 'N/A'] *)
Definition brand_text (s : pyval) : result pyval :=
  match get s "brand" PNone with
  | Ok b => if ne_str b "nan" then get s "brand" (PStr "N/A") else Ok (PStr "N/A")
  | Raise e => Raise e
  end.

(** [s.get('category', 'N/A')[:40] if s.get('category') != 'nan' else 'N/A'] *)
Definition category_text (s : pyval) : result pyval :=
  match get s "category" PNone with
  | Ok c =>
      if ne_str c "nan" then
        match get s "category" (PStr "N/A") with
        | Ok c' => slice_to 40 c'
        | Raise e => Raise e
        end
      else Ok (PStr "N/A")
  | Raise e => Raise e
  end.

(** One result card of the single-method view. *)
Definition result_card (i : Z) (hit : pyval) : M unit :=
  let* s := lift (subscript hit "_source") in
  emit (UI "main" (Columns [1; 4])) ;;
  image_cell s ;;
  let* name := lift (subscript s "product_name") in
  emit (UI "col_info" (Markdown ("### " ++ pretty i ++ ". " ++ py_str w name))) ;;
  emit (UI "col_info" (Columns [1; 1; 1; 1])) ;;
  let* brand := lift (brand_text s) in
  emit (UI "d1" (Markdown ("**Brand:** " ++ py_str w brand))) ;;
  let* amount := lift (price_text s) in
  emit (UI "d2" (Markdown ("**Price:** $" ++ amount))) ;;
  let* category := lift (category_text s) in
  emit (UI "d3" (Markdown ("**Category:** " ++ py_str w category))) ;;
  let* score := lift (subscript hit "_score") in
  let* points := lift (format_f 3 score) in
  emit (UI "d4" (Markdown ("**Score:** " ++ points))) ;;
  emit (UI "main" (Markdown "---")).

Definition single_method (m : method) (q : string) (k : Z) : M unit :=
  emit (UI "main" (Spinner "Searching...")) ;;
  let* results := funcs m q k in
  emit (UI "main" (Columns [1; 1; 1; 1])) ;;
  emit (UI "col1" (Metric "⏱️ Latency" MElapsed)) ;;
  let* n := lift (py_len results) in
  emit (UI "col2" (Metric "📊 Results" (MInt n))) ;;
  emit (UI "col3" (Metric "🔧 Method" (MStr (method_label m)))) ;;
  emit (UI "col4" (Metric "🎯 Storage" (MStr "BBQ int8"))) ;;
  emit (UI "main" (Markdown "---")) ;;
  if truthy results then
    let* items := lift (py_iter results) in
    for_enumerate result_card 1 items
  else ret tt.

(** The two search blocks of the script. *)
Definition search_blocks (inp : Inputs) : M unit :=
  if comparison_mode inp && truthy (PStr (query inp)) then
    comparison (query inp) (num_results inp)
  else if negb (comparison_mode inp) && truthy (PStr (query inp))
          && truthy (PStr (method_label (search_method inp))) then
    single_method (search_method inp) (query inp) (num_results inp)
  else ret tt.

End Script.

(** ** Reading a request body *)

Inductive step : Type :=
| Key (name : string)
| Idx (i : nat).

(** Follow a path of dict keys and list positions into a value. *)
Fixpoint at_path (p : list step) (v : pyval) : option pyval :=
  match p with
  | [] => Some v
  | Key name :: p' =>
      match v with
      | PDict d => match d !! name with Some x => at_path p' x | None => None end
      | _ => None
      end
  | Idx i :: p' =>
      match v with
      | PList l => match l !! i with Some x => at_path p' x | None => None end
      | _ => None
      end
  end.

(** Where each part of the three request shapes sits. *)
Definition BM25_MULTI_MATCH : list step := [Key "query"; Key "multi_match"].
Definition HYBRID_RRF : list step := [Key "retriever"; Key "rrf"].
Definition PIPELINE_RERANKER : list step := [Key "retriever"; Key "text_similarity_reranker"].
Definition PIPELINE_RRF : list step := (PIPELINE_RERANKER ++ [Key "retriever"; Key "rrf"])%list.
Definition RRF_MULTI_MATCH : list step :=
  [Key "retrievers"; Idx 0; Key "standard"; Key "query"; Key "multi_match"].
Definition RRF_KNN : list step := [Key "retrievers"; Idx 1; Key "knn"].

(** The request body a strategy sends for a query, its vector and [k]. *)
Definition body_of (m : method) (q : string) (query_vector : pyval) (k : Z) : pydict :=
  match m with
  | BM25Keyword => bm25_body q k
  | VectorSemantic => vector_body query_vector k
  | HybridRRF => hybrid_body q query_vector k
  | FullPipeline => full_pipeline_body q query_vector k
  end.

Definition uses_embedding (m : method) : bool :=
  match m with
  | BM25Keyword => false
  | _ => true
  end.

(** *** Elasticsearch's [field^boost] syntax *)

Definition digit_of (c : ascii) : option Z :=
  let n := Z.of_nat (nat_of_ascii c) in
  if (48 <=? n) && (n <=? 57) then Some (n - 48) else None.

(** The number a string of decimal digits denotes, most significant first. *)
Fixpoint digits_value (acc : Z) (s : string) : option Z :=
  match s with
  | EmptyString => Some acc
  | String c s' =>
      match digit_of c with
      | Some d => digits_value (10 * acc + d) s'
      | None => None
      end
  end.

(** Cut a string at the first occurrence of a character. *)
Fixpoint cut_at (sep : ascii) (s : string) : string * option string :=
  match s with
  | EmptyString => (EmptyString, None)
  | String c s' =>
      if Ascii.eqb c sep then (EmptyString, Some s')
      else let '(a, b) := cut_at sep s' in (String c a, b)
  end.

(** A decimal numeral such as [3] or [1.5]. *)
Definition parse_decimal (s : string) : option Q :=
  match cut_at "." s with
  | (whole, None) =>
      match whole with
      | EmptyString => None
      | _ => match digits_value 0 whole with Some n => Some (inject_Z n) | None => None end
      end
  | (whole, Some frac) =>
      match digits_value 0 (whole ++ frac) with
      | Some n => Some (Qmake n (Pos.pow 10 (Pos.of_nat (String.length frac))))
      | None => None
      end
  end.

Definition field_name (f : string) : string := (cut_at "^" f).1.

(** A field written without [^] has the boost 1. *)
Definition field_boost (f : string) : option Q :=
  match cut_at "^" f with
  | (_, None) => Some (inject_Z 1)
  | (_, Some b) => parse_decimal b
  end.

Definition str_of (v : pyval) : option string :=
  match v with
  | PStr s => Some s
  | _ => None
  end.

(** The names and boosts of a [multi_match]'s field list. *)
Definition lexical_fields (mm : pyval) : option (list (string * Q)) :=
  match at_path [Key "fields"] mm with
  | Some (PList fs) =>
      mapM (fun f =>
        match str_of f with
        | Some s => match field_boost s with Some b => Some (field_name s, b) | None => None end
        | None => None
        end) fs
  | _ => None
  end.

(** How a [multi_match] combines the scores of its fields: the [type] it
    names, or [best_fields] when it names none (the search engine's default). *)
Definition combination (mm : pyval) : option string :=
  match at_path [Key "type"] mm with
  | Some t => str_of t
  | None => Some "best_fields"
  end.

(** The fields of a list are in strictly decreasing boost order. *)
Fixpoint decreasing_boosts (fs : list (string * Q)) : Prop :=
  match fs with
  | [] => True
  | (_, b) :: rest =>
      match rest with
      | [] => True
      | (_, b') :: _ => (b' < b)%Q /\ decreasing_boosts rest
      end
  end.

(** The searches a history records, in order. *)
Definition searches (h : history) : list pydict :=
  omap (fun ev => match ev with Search _ body => Some body | _ => None end) h.

(** The containers a history writes to, in order. *)
Definition containers (h : history) : list string :=
  omap (fun ev => match ev with UI c _ => Some c | _ => None end) h.

(** The candidate-pool rule the design text names for the Vector strategy:
    ten times [k], capped at a ceiling.  Kept apart from the code's own
    constant, to compare the two. *)
Definition spec_candidate_pool (ceiling k : Z) : Z := Z.min (10 * k) ceiling.

(** ** Properties of the collaborators *)

(** The backend returns at most [size] hits, as a list under
    [response["hits"]["hits"]]. *)
Definition honours_size (w : World) : Prop :=
  forall h index body k response v,
    body !! "size" = Some (PInt k) ->
    client_search w h index body = Ok response ->
    response_hits response = Ok v ->
    exists l, v = PList l /\ Z.of_nat (length l) <= k.

(** The world [w] with another embedding model. *)
Definition with_model (enc : history -> string -> result pyval) (w : World) : World :=
  {| model_encode := enc;
     client_search := client_search w;
     st_image_raises := st_image_raises w;
     builtin_str := builtin_str w |}.

(** ** Sample worlds *)

Definition product (name : string) (fields : list (string * pyval)) (score : pyfloat) : pyval :=
  dict [("_score", PFloat score);
        ("_source", dict (("product_name", PStr name) :: fields))].

Definition CATALOGUE : list pyval := [
  product "LEGO Star Wars X-Wing"
    [("brand", PStr "LEGO"); ("price", PFloat (FFinite false 6399 (-7)));
     ("category", PStr "Toys & Games | Building Toys | Building Sets")]
    (FFinite false 25 (-1));
  product "Hot Wheels Race Track" [("brand", PStr "nan"); ("category", PStr "nan")]
    (FFinite false 9 (-2));
  product "Pokemon Plush" [] (FFinite false 1 (-1));
  product "Coloring Book" [("brand", PStr "Crayola"); ("price", PInt 4)]
    (FFinite false 1 (-4))].

Definition respond (hits : list pyval) : pyval :=
  dict [("hits", dict [("hits", PList hits)])].

(** A backend that answers every request with the first [size] products, and
    a model that embeds every text as the same short vector. *)
Definition sample_world : World :=
  {| model_encode := fun _ _ =>
       Ok (PList [PFloat (FFinite false 1 (-2)); PFloat (FFinite true 3 (-4))]);
     client_search := fun _ _ body =>
       match body !! "size" with
       | Some (PInt k) =>
           if k <? 0 then Raise (External "BadRequestError")
           else Ok (respond (take (Z.to_nat k) CATALOGUE))
       | _ => Raise (External "BadRequestError")
       end;
     st_image_raises := fun _ _ => false;
     builtin_str := fun _ => "<object>" |}.

(** The same, but the backend is unreachable for the Vector strategy's
    request, the only one with a top-level [knn]. *)
Definition vector_outage : World :=
  {| model_encode := model_encode sample_world;
     client_search := fun h index body =>
       match body !! "knn" with
       | Some _ => Raise (External "ConnectionError")
       | None => client_search sample_world h index body
       end;
     st_image_raises := st_image_raises sample_world;
     builtin_str := builtin_str sample_world |}.

(** ** Further observations of a run *)

(** The calls to the model and to the backend a history records, in order. *)
Definition external_calls (h : history) : list event :=
  omap (fun ev => match ev with UI _ _ => None | _ => Some ev end) h.

(** The texts a history records as sent to the model, in order. *)
Definition encodes (h : history) : list string :=
  omap (fun ev => match ev with Encode text => Some text | _ => None end) h.

(** A computation that calls neither the model nor the backend. *)
Definition ui_only {A : Type} (c : M A) : Prop :=
  forall h, external_calls (c h).1 = external_calls h.

(** A computation that, however it ends, makes at most [s] backend calls and
    at most [e] model calls. *)
Definition calls_at_most {A : Type} (s e : nat) (c : M A) : Prop :=
  forall h, exists new,
    external_calls (c h).1 = (external_calls h ++ new)%list /\
    (length (searches new) <= s)%nat /\
    (length (encodes new) <= e)%nat.

(** A computation that only adds to the history. *)
Definition extends_history {A : Type} (c : M A) : Prop :=
  forall h, exists rest, (c h).1 = (h ++ rest)%list.



(** ** The example shortcuts of the sidebar *)




(** A backend whose answers have no [hits]. *)
Definition shapeless_backend : World :=
  {| model_encode := model_encode sample_world;
     client_search := fun _ _ _ => Ok (dict [("took", PInt 3)]);
     st_image_raises := st_image_raises sample_world;
     builtin_str := builtin_str sample_world |}.

(** A page on which [st.image] raises for the addresses of one host. *)
Definition broken_images : World :=
  {| model_encode := model_encode sample_world;
     client_search := client_search sample_world;
     st_image_raises := fun _ url => String.prefix "http://broken" url;
     builtin_str := builtin_str sample_world |}.

(** * Properties *)

Ltac by_evaluation := vm_compute; reflexivity.

Example format_f_samples :
  format_f 2 (PInt 0) = Ok "0.00" /\
  format_f 2 (PInt (-7)) = Ok "-7.00" /\
  format_f 2 (PFloat (FFinite false 1 (-3))) = Ok "0.12" /\   (* 0.125 *)
  format_f 2 (PFloat (FFinite false 3 (-3))) = Ok "0.38" /\   (* 0.375 *)
  format_f 2 (PFloat (FFinite false 1599 (-7))) = Ok "12.49" /\
  format_f 3 (PFloat (FFinite true 1 (-20))) = Ok "-0.000" /\
  format_f 2 (PInt (2 ^ 53 + 1)) = Ok "9007199254740992.00" /\
  format_f 2 (PBool true) = Ok "1.00" /\
  format_f 2 PNone = Raise TypeError /\
  format_f 2 (PStr "9.99") = Raise ValueError.
Proof. vm_compute. repeat split. Qed.

Example lexical_fields_sample :
  lexical_fields (dict [("fields", PList [PStr "a^2.25"; PStr "b"])]) =
    Some [("a", Qmake 225 100); ("b", inject_Z 1)].
Proof. vm_compute. reflexivity. Qed.

(** ** What each search function does, call by call *)

Lemma bm25_search_run (w : World) (q : string) (k : Z) (h : history) :
  bm25_search w q k h =
    ((h ++ [Search INDEX_NAME (bm25_body q k)])%list,
     match client_search w h INDEX_NAME (bm25_body q k) with
     | Ok response => response_hits response
     | Raise e => Raise e
     end).
Proof.
  unfold bm25_search, bind, es_search, hits_of, lift.
  destruct (client_search w h INDEX_NAME (bm25_body q k)); reflexivity.
Qed.

Lemma embedding_search_run (m : method) (w : World) (q : string) (k : Z) (h : history) :
  uses_embedding m = true ->
  funcs w m q k h =
    match model_encode w h q with
    | Raise e => ((h ++ [Encode q])%list, Raise e)
    | Ok vec =>
        (((h ++ [Encode q]) ++ [Search INDEX_NAME (body_of m q vec k)])%list,
         match client_search w (h ++ [Encode q])%list INDEX_NAME (body_of m q vec k) with
         | Ok response => response_hits response
         | Raise e => Raise e
         end)
    end.
Proof.
  intros Hm.
  destruct m; try discriminate Hm; cbn [funcs body_of];
    unfold full_pipeline_search, hybrid_rrf_search, vector_search,
      bind, encode, es_search, hits_of, lift;
    destruct (model_encode w h q) as [vec|e]; try reflexivity;
    match goal with
    | |- context [client_search ?a ?b ?c ?d] => destruct (client_search a b c d)
    end; reflexivity.
Qed.

Lemma body_size (m : method) (q : string) (vec : pyval) (k : Z) :
  body_of m q vec k !! "size" = Some (PInt k).
Proof. destruct m; by_evaluation. Qed.

(** A search that returns has sent a request of size [k] and returns the
    hits of the answer to it. *)
Lemma funcs_returns (m : method) (w : World) (q : string) (k : Z)
    (h h' : history) (v : pyval) :
  funcs w m q k h = (h', Ok v) ->
  exists h0 body response,
    body !! "size" = Some (PInt k) /\
    client_search w h0 INDEX_NAME body = Ok response /\
    response_hits response = Ok v.
Proof.
  intros Hrun.
  destruct (uses_embedding m) eqn:Hm.
  - rewrite embedding_search_run in Hrun by exact Hm.
    destruct (model_encode w h q) as [vec|e]; [|discriminate Hrun].
    destruct (client_search w (h ++ [Encode q])%list INDEX_NAME (body_of m q vec k))
      as [response|e] eqn:Hsearch; [|discriminate Hrun].
    exists (h ++ [Encode q])%list, (body_of m q vec k), response.
    split; [apply body_size|]. split; [exact Hsearch|]. congruence.
  - destruct m; try discriminate Hm. cbn [funcs] in Hrun.
    rewrite bm25_search_run in Hrun.
    destruct (client_search w h INDEX_NAME (bm25_body q k)) as [response|e] eqn:Hsearch;
      [|discriminate Hrun].
    exists h, (bm25_body q k), response.
    split; [apply (body_size BM25Keyword q PNone k)|]. split; [exact Hsearch|]. congruence.
Qed.

Lemma sample_world_honours_size : honours_size sample_world.
Proof.
  intros h index body k response v Hsize Hsearch Hhits.
  cbn [sample_world client_search] in Hsearch. rewrite Hsize in Hsearch.
  destruct (k <? 0) eqn:Hk; [discriminate Hsearch|].
  apply Z.ltb_ge in Hk.
  injection Hsearch as <-.
  exists (take (Z.to_nat k) CATALOGUE). split.
  - vm_compute in Hhits. injection Hhits as <-. reflexivity.
  - rewrite length_take. lia.
Qed.

(** ** Result count *)

(** C1. Whatever the strategy, the request body carries [size = k]; so when
    the backend returns no more hits than the [size] it is asked for, a search
    that returns gives a list of at most [k] hits. *)
Theorem result_set_within_k (w : World) (m : method) (q : string) (k : Z)
    (h h' : history) (v : pyval) :
  honours_size w ->
  funcs w m q k h = (h', Ok v) ->
  (forall vec, body_of m q vec k !! "size" = Some (PInt k)) /\
  exists l, v = PList l /\ Z.of_nat (length l) <= k.
Proof.
  intros Hw Hrun. split.
  - intros vec. apply body_size.
  - destruct (funcs_returns m w q k h h' v Hrun)
      as (h0 & body & response & Hsize & Hsearch & Hhits).
    exact (Hw h0 INDEX_NAME body k response v Hsize Hsearch Hhits).
Qed.

Lemma result_set_within_k_witness :
  honours_size sample_world /\
  exists h' v,
    funcs sample_world VectorSemantic "lego" 3 [] = (h', Ok v) /\
    (forall vec, body_of VectorSemantic "lego" vec 3 !! "size" = Some (PInt 3)) /\
    exists l, v = PList l /\ Z.of_nat (length l) <= 3.
Proof.
  split; [exact sample_world_honours_size|].
  eexists _, _. split; [vm_compute; reflexivity|].
  eapply (result_set_within_k sample_world VectorSemantic "lego" 3 []).
  - exact sample_world_honours_size.
  - vm_compute. reflexivity.
Defined.

(** ** Windows *)

(** C4. For every [k] up to 100 (the slider gives 3 to 12), the [rrf]
    retriever of the Hybrid request has a [rank_window_size] of at least [k],
    and in the Full Pipeline request the reranker's [rank_window_size] is at
    most that of the [rrf] retriever inside it. *)
Theorem fusion_and_rerank_windows (q : string) (vec : pyval) (k : Z) :
  k <= 100 ->
  exists fusion rerank inner,
    at_path (HYBRID_RRF ++ [Key "rank_window_size"]) (PDict (hybrid_body q vec k))
      = Some (PInt fusion) /\
    k <= fusion /\
    at_path (PIPELINE_RERANKER ++ [Key "rank_window_size"])
      (PDict (full_pipeline_body q vec k)) = Some (PInt rerank) /\
    at_path (PIPELINE_RRF ++ [Key "rank_window_size"])
      (PDict (full_pipeline_body q vec k)) = Some (PInt inner) /\
    rerank <= inner.
Proof.
  intros Hk. exists 100, 50, 100.
  split; [by_evaluation|]. split; [exact Hk|].
  do 2 (split; [by_evaluation|]). lia.
Qed.

Lemma fusion_and_rerank_windows_witness :
  12 <= 100 /\
  exists fusion rerank inner,
    at_path (HYBRID_RRF ++ [Key "rank_window_size"]) (PDict (hybrid_body "lego" PNone 12))
      = Some (PInt fusion) /\
    12 <= fusion /\
    at_path (PIPELINE_RERANKER ++ [Key "rank_window_size"])
      (PDict (full_pipeline_body "lego" PNone 12)) = Some (PInt rerank) /\
    at_path (PIPELINE_RRF ++ [Key "rank_window_size"])
      (PDict (full_pipeline_body "lego" PNone 12)) = Some (PInt inner) /\
    rerank <= inner.
Proof.
  split; [lia|]. apply (fusion_and_rerank_windows "lego" PNone 12). lia.
Defined.

(** ** Lexical fields *)

(** C5. The three requests with a lexical part (BM25, and the [standard]
    retrievers of Hybrid and Full Pipeline) carry the same field list:
    product_name, brand, category, document_text with boosts 3 > 2 > 1.5 > 1.
    BM25 names [best_fields]; the other two name no [type], which the search
    engine reads as [best_fields] too. *)
Theorem lexical_boosts_shared (q : string) (vec : pyval) (k : Z) :
  exists mm1 mm2 mm3 fs,
    at_path BM25_MULTI_MATCH (PDict (bm25_body q k)) = Some mm1 /\
    at_path (HYBRID_RRF ++ RRF_MULTI_MATCH) (PDict (hybrid_body q vec k)) = Some mm2 /\
    at_path (PIPELINE_RRF ++ RRF_MULTI_MATCH) (PDict (full_pipeline_body q vec k)) = Some mm3 /\
    at_path [Key "fields"] mm2 = at_path [Key "fields"] mm1 /\
    at_path [Key "fields"] mm3 = at_path [Key "fields"] mm1 /\
    lexical_fields mm1 = Some fs /\
    map fst fs = ["product_name"; "brand"; "category"; "document_text"] /\
    map snd fs = [inject_Z 3; inject_Z 2; Qmake 15 10; inject_Z 1] /\
    decreasing_boosts fs /\
    at_path [Key "type"] mm1 = Some (PStr "best_fields") /\
    at_path [Key "type"] mm2 = None /\
    at_path [Key "type"] mm3 = None /\
    combination mm1 = Some "best_fields" /\
    combination mm2 = Some "best_fields" /\
    combination mm3 = Some "best_fields".
Proof.
  do 4 eexists.
  do 8 (split; [by_evaluation|]).
  split; [vm_compute; repeat split|].
  repeat split; by_evaluation.
Qed.

(** ** Candidate pools *)

Lemma vector_pool_is_100 (vec : pyval) (k : Z) :
  at_path [Key "knn"; Key "num_candidates"] (PDict (vector_body vec k)) = Some (PInt 100).
Proof. by_evaluation. Qed.

(** C6, as the design text has it, fails: at [k = 5] the Vector request asks
    for 100 candidates, which no ceiling turns into [min (10 * 5) ceiling]. *)
Lemma vector_pool_not_ten_times_k :
  ~ exists ceiling,
      at_path [Key "knn"; Key "num_candidates"] (PDict (vector_body (PList []) 5))
        = Some (PInt (spec_candidate_pool ceiling 5)).
Proof.
  intros [ceiling H]. rewrite vector_pool_is_100 in H.
  injection H as H. unfold spec_candidate_pool in H. lia.
Qed.

(** C6, amended. The Vector request's [num_candidates] is the constant 100
    whatever [k] is; it is strictly greater than every [k] below 100 (the
    slider gives 3 to 12), and at [k = 5] it is at least 50. *)
Theorem vector_pool_fixed (vec : pyval) (k : Z) :
  k < 100 ->
  exists pool,
    at_path [Key "knn"; Key "num_candidates"] (PDict (vector_body vec k)) = Some (PInt pool) /\
    pool = 100 /\
    k < pool /\
    (k = 5 -> 50 <= pool).
Proof.
  intros Hk. exists 100. split; [apply vector_pool_is_100|]. lia.
Qed.

Lemma vector_pool_fixed_witness :
  5 < 100 /\
  exists pool,
    at_path [Key "knn"; Key "num_candidates"] (PDict (vector_body (PList []) 5))
      = Some (PInt pool) /\
    pool = 100 /\
    5 < pool /\
    (5 = 5 -> 50 <= pool).
Proof.
  split; [lia|]. apply (vector_pool_fixed (PList []) 5). lia.
Defined.

(** ** The inner nearest-neighbour retriever *)

(** C10. In the Hybrid and the Full Pipeline request the inner [knn]
    retriever is the same whatever [k] is: field [embedding], the query
    vector, [k = 50], [num_candidates = 100].  Two requests for the same query
    and vector differ in [size] only, which is the requested [k]. *)
Theorem inner_knn_independent_of_k (q : string) (vec : pyval) (k k' : Z) :
  at_path (HYBRID_RRF ++ RRF_KNN) (PDict (hybrid_body q vec k)) =
    Some (dict [("field", PStr "embedding"); ("query_vector", vec);
                ("k", PInt 50); ("num_candidates", PInt 100)]) /\
  at_path (PIPELINE_RRF ++ RRF_KNN) (PDict (full_pipeline_body q vec k)) =
    Some (dict [("field", PStr "embedding"); ("query_vector", vec);
                ("k", PInt 50); ("num_candidates", PInt 100)]) /\
  hybrid_body q vec k !! "size" = Some (PInt k) /\
  full_pipeline_body q vec k !! "size" = Some (PInt k) /\
  delete "size" (hybrid_body q vec k) = delete "size" (hybrid_body q vec k') /\
  delete "size" (full_pipeline_body q vec k) = delete "size" (full_pipeline_body q vec k').
Proof. repeat split; by_evaluation. Qed.

(** ** The embedding model *)

(** C7. BM25 never calls the embedding model: its run is one backend call and
    is the same under any model.  Vector, Hybrid and Full Pipeline call the
    model first; if it raises, the exception ends the search before any
    backend call, otherwise exactly one backend call follows. *)
Theorem embedding_only_where_needed (w : World) (q : string) (k : Z) (h : history) :
  (forall enc, bm25_search (with_model enc w) q k h = bm25_search w q k h) /\
  (bm25_search w q k h).1 = (h ++ [Search INDEX_NAME (bm25_body q k)])%list /\
  Forall (fun m =>
    funcs w m q k h =
      match model_encode w h q with
      | Raise e => ((h ++ [Encode q])%list, Raise e)
      | Ok vec =>
          (((h ++ [Encode q]) ++ [Search INDEX_NAME (body_of m q vec k)])%list,
           match client_search w (h ++ [Encode q])%list INDEX_NAME (body_of m q vec k) with
           | Ok response => response_hits response
           | Raise e => Raise e
           end)
      end) [VectorSemantic; HybridRRF; FullPipeline].
Proof.
  split; [|split].
  - intros enc. rewrite !bm25_search_run. reflexivity.
  - rewrite bm25_search_run. reflexivity.
  - repeat constructor; apply embedding_search_run; reflexivity.
Qed.

(** ** Input checks *)

(** C3, as the design text has it, fails: BM25 with the empty query and
    [k = 0], and with [k = 1000], is sent to the backend and returns. *)
Lemma invalid_input_is_dispatched :
  run (bm25_search sample_world "" 0) =
    ([Search INDEX_NAME (bm25_body "" 0)], Ok (PList [])) /\
  run (bm25_search sample_world "lego" 1000) =
    ([Search INDEX_NAME (bm25_body "lego" 1000)], Ok (PList CATALOGUE)).
Proof. split; by_evaluation. Qed.

(** C3, amended. No search function checks its arguments: whatever the query
    and [k], BM25 sends its request, and the other three send theirs once the
    embedding call has returned.  The only check is the script's: with the
    empty text (not trimmed) no search starts and nothing is reported; any
    other text, blank ones included, starts the selected search. *)
Theorem requests_sent_unchecked (w : World) (h : history) :
  (forall q k,
     (bm25_search w q k h).1 = (h ++ [Search INDEX_NAME (bm25_body q k)])%list) /\
  (forall m q k vec,
     uses_embedding m = true ->
     model_encode w h q = Ok vec ->
     (funcs w m q k h).1 =
       ((h ++ [Encode q]) ++ [Search INDEX_NAME (body_of m q vec k)])%list) /\
  (forall inp, query inp = "" -> search_blocks w inp h = (h, Ok tt)) /\
  (forall inp,
     query inp <> "" ->
     search_blocks w inp h =
       if comparison_mode inp then comparison w (query inp) (num_results inp) h
       else single_method w (search_method inp) (query inp) (num_results inp) h).
Proof.
  split; [|split; [|split]].
  - intros q k. rewrite bm25_search_run. reflexivity.
  - intros m q k vec Hm Henc. rewrite embedding_search_run by exact Hm.
    rewrite Henc. reflexivity.
  - intros inp Hq. unfold search_blocks. rewrite Hq. cbn.
    rewrite !andb_false_r. reflexivity.
  - intros inp Hq. unfold search_blocks.
    assert (Ht : truthy (PStr (query inp)) = true).
    { cbn. destruct (String.eqb_spec (query inp) ""); [contradiction|reflexivity]. }
    rewrite Ht.
    destruct (comparison_mode inp), (search_method inp); reflexivity.
Qed.

Lemma requests_sent_unchecked_witness :
  (bm25_search sample_world "" 0 []).1 = [Search INDEX_NAME (bm25_body "" 0)] /\
  (exists vec,
     model_encode sample_world [] "" = Ok vec /\
     (funcs sample_world VectorSemantic "" 0 []).1 =
       [Encode ""; Search INDEX_NAME (body_of VectorSemantic "" vec 0)]) /\
  search_blocks sample_world
    {| comparison_mode := true; search_method := BM25Keyword;
       num_results := 5; query := "" |} [] = ([], Ok tt) /\
  search_blocks sample_world
    {| comparison_mode := false; search_method := BM25Keyword;
       num_results := 5; query := " " |} [] =
    single_method sample_world BM25Keyword " " 5 [].
Proof.
  destruct (requests_sent_unchecked sample_world []) as (Hbm25 & Hemb & Hempty & Htext).
  split; [exact (Hbm25 "" 0)|]. split; [|split].
  - eexists. split; [reflexivity|].
    apply (Hemb VectorSemantic "" 0); reflexivity.
  - apply Hempty. reflexivity.
  - apply (Htext {| comparison_mode := false; search_method := BM25Keyword;
                    num_results := 5; query := " " |}). discriminate.
Defined.

(** ** The comparison *)

Lemma bind_assoc {A B C : Type} (m : M A) (f : A -> M B) (g : B -> M C) (h : history) :
  bind (bind m f) g h = bind m (fun a => bind (f a) g) h.
Proof. unfold bind. destruct (m h) as [h1 [a|e]]; reflexivity. Qed.

Lemma comparison_unfold (w : World) (q : string) (k : Z) (h : history) :
  comparison w q k h =
    bind (bind comparison_header (fun _ => run_columns w q k (COLUMNS w)))
         (fun _ => comparison_footer) h.
Proof.
  unfold comparison, comparison_header, comparison_footer, COLUMNS, run_columns,
    bind, emit, ret.
  repeat
    (match goal with
     | |- context [comparison_column ?w' ?c ?t ?s ?q' ?k' ?h'] =>
         destruct (comparison_column w' c t s q' k' h') as [? [[]|?]]
     end; try reflexivity).
Qed.

Lemma run_columns_app (w : World) (q : string) (k : Z)
    (before after : list (string * string * (string -> Z -> M pyval)))
    (h : history) :
  run_columns w q k (before ++ after) h =
    bind (run_columns w q k before) (fun _ => run_columns w q k after) h.
Proof.
  revert h. induction before as [|[[col title] search] rest IH]; intros h.
  - reflexivity.
  - cbn [app run_columns]. rewrite bind_assoc. unfold bind at 1 2.
    destruct (comparison_column w col title search q k h) as [h1 [[]|e]].
    + apply IH.
    + reflexivity.
Qed.

(** A search that raises ends its column there. *)
Lemma comparison_column_raises (w : World) (col title : string)
    (search : string -> Z -> M pyval) (q : string) (k : Z)
    (h h' : history) (e : exn) :
  search q k (h ++ [UI col (Markdown title)])%list = (h', Raise e) ->
  comparison_column w col title search q k h = (h', Raise e).
Proof.
  intros Hsearch. unfold comparison_column, bind at 1, emit.
  unfold bind at 1. rewrite Hsearch. reflexivity.
Qed.

(** The columns run the four search functions. *)
Lemma column_search (w : World) (n : nat) (col title : string)
    (search : string -> Z -> M pyval) :
  COLUMNS w !! n = Some (col, title, search) -> exists m, search = funcs w m.
Proof.
  intros Hcol.
  destruct n as [|[|[|[|n]]]]; cbn in Hcol; try discriminate Hcol;
    injection Hcol as _ _ <-.
  - exists BM25Keyword. reflexivity.
  - exists VectorSemantic. reflexivity.
  - exists HybridRRF. reflexivity.
  - exists FullPipeline. reflexivity.
Qed.

(** A search function writes nothing to the page. *)
Lemma search_writes_nothing (w : World) (m : method) (q : string) (k : Z) (h : history) :
  containers (funcs w m q k h).1 = containers h.
Proof.
  destruct (uses_embedding m) eqn:Hm.
  - rewrite embedding_search_run by exact Hm.
    destruct (model_encode w h q); cbn [fst]; unfold containers;
      rewrite ?omap_app; cbn; rewrite ?app_nil_r; reflexivity.
  - destruct m; try discriminate Hm. cbn [funcs]. rewrite bm25_search_run.
    cbn [fst]. unfold containers. rewrite omap_app. cbn. rewrite app_nil_r. reflexivity.
Qed.

(** C2, as the design text has it, fails.  With a backend that is down for
    the Vector request only, each other strategy returns when run alone, yet
    the comparison ends with the Vector call's exception: the BM25 column is
    written, the Vector column has its title only, and nothing is written or
    sent for Hybrid and Full Pipeline. *)
Lemma vector_outage_aborts_comparison :
  (run (bm25_search vector_outage "lego" 3)).2 = Ok (PList (take 3 CATALOGUE)) /\
  (run (vector_search vector_outage "lego" 3)).2 = Raise (External "ConnectionError") /\
  (run (hybrid_rrf_search vector_outage "lego" 3)).2 = Ok (PList (take 3 CATALOGUE)) /\
  (run (full_pipeline_search vector_outage "lego" 3)).2 = Ok (PList (take 3 CATALOGUE)) /\
  (run (comparison vector_outage "lego" 3)).2 = Raise (External "ConnectionError") /\
  containers (run (comparison vector_outage "lego" 3)).1 =
    ["main"; "main"; "col1"; "col1"; "col1"; "col1"; "col1"; "col1"; "col1"; "col1";
     "col2"] /\
  searches (run (comparison vector_outage "lego" 3)).1 =
    [bm25_body "lego" 3;
     vector_body (PList [PFloat (FFinite false 1 (-2)); PFloat (FFinite true 3 (-4))]) 3].
Proof. repeat split; by_evaluation. Qed.

(** C2, amended. The comparison runs BM25, Vector, Hybrid and Full Pipeline
    in this order and catches nothing: when the columns before a strategy have
    been written and that strategy's search raises, the comparison ends with
    the same exception and with the history of that failed search; the later
    strategies are not run and no failure marker is written. *)
Theorem comparison_stops_at_first_failure (w : World) (q : string) (k : Z)
    (n : nat) (col title : string) (search : string -> Z -> M pyval)
    (h h1 h2 : history) (e : exn) :
  COLUMNS w !! n = Some (col, title, search) ->
  bind comparison_header (fun _ => run_columns w q k (take n (COLUMNS w))) h = (h1, Ok tt) ->
  search q k (h1 ++ [UI col (Markdown title)])%list = (h2, Raise e) ->
  comparison w q k h = (h2, Raise e) /\
  containers h2 = (containers h1 ++ [col])%list.
Proof.
  intros Hcol Hbefore Hsearch. split.
  2: {
    destruct (column_search w n col title search Hcol) as [m ->].
    pose proof (search_writes_nothing w m q k (h1 ++ [UI col (Markdown title)])%list) as Hui.
    rewrite Hsearch in Hui. cbn [fst] in Hui. rewrite Hui.
    unfold containers. rewrite omap_app. reflexivity.
  }
  rewrite comparison_unfold.
  rewrite <- (take_drop_middle (COLUMNS w) n (col, title, search) Hcol).
  unfold bind at 1. unfold bind at 1. unfold bind at 1 in Hbefore.
  destruct (comparison_header h) as [h0 [[]|e0]]; [|discriminate Hbefore].
  rewrite run_columns_app. unfold bind at 1. rewrite Hbefore.
  cbn [run_columns]. unfold bind at 1.
  rewrite (comparison_column_raises w col title search q k h1 h2 e Hsearch).
  reflexivity.
Qed.

Lemma comparison_stops_at_first_failure_witness :
  exists h1 h2,
    COLUMNS vector_outage !! 1%nat = Some ("col2", "**🧠 Vector**", vector_search vector_outage) /\
    bind comparison_header
      (fun _ => run_columns vector_outage "lego" 3 (take 1 (COLUMNS vector_outage))) [] = (h1, Ok tt) /\
    vector_search vector_outage "lego" 3 (h1 ++ [UI "col2" (Markdown "**🧠 Vector**")])%list
      = (h2, Raise (External "ConnectionError")) /\
    comparison vector_outage "lego" 3 [] = (h2, Raise (External "ConnectionError")) /\
    containers h2 = (containers h1 ++ ["col2"])%list.
Proof.
  eexists _, _.
  split; [reflexivity|].
  split; [vm_compute; reflexivity|].
  split; [vm_compute; reflexivity|].
  eapply (comparison_stops_at_first_failure vector_outage "lego" 3 1
            "col2" "**🧠 Vector**" (vector_search vector_outage) []).
  - reflexivity.
  - vm_compute. reflexivity.
  - vm_compute. reflexivity.
Defined.

(** ** Display fields of a hit *)

(** The lines a result card writes, given its image cell and the texts of
    its fields. *)
Lemma result_card_lines (w : World) (i : Z) (hit d : pydict) (h hi : history)
    (name brand category score : pyval) (amount points : string) :
  hit !! "_source" = Some (PDict d) ->
  image_cell w (PDict d) (h ++ [UI "main" (Columns [1; 4])])%list = (hi, Ok tt) ->
  d !! "product_name" = Some name ->
  brand_text (PDict d) = Ok brand ->
  price_text (PDict d) = Ok amount ->
  category_text (PDict d) = Ok category ->
  hit !! "_score" = Some score ->
  format_f 3 score = Ok points ->
  result_card w i (PDict hit) h =
    ((hi ++ [UI "col_info" (Markdown ("### " ++ pretty i ++ ". " ++ py_str w name));
             UI "col_info" (Columns [1; 1; 1; 1]);
             UI "d1" (Markdown ("**Brand:** " ++ py_str w brand));
             UI "d2" (Markdown ("**Price:** $" ++ amount));
             UI "d3" (Markdown ("**Category:** " ++ py_str w category));
             UI "d4" (Markdown ("**Score:** " ++ points));
             UI "main" (Markdown "---")])%list,
     Ok tt).
Proof.
  intros Hsource Himage Hname Hbrand Hprice Hcategory Hscore Hpoints.
  unfold result_card, bind, lift, emit, subscript.
  rewrite Hsource, Himage, Hname, Hbrand, Hprice, Hcategory, Hscore, Hpoints.
  rewrite <- !app_assoc. reflexivity.
Qed.





(** The cards of two sample products: one without brand, price and category,
    one whose brand and category are [nan]. *)
Example sample_cards :
  (run (result_card sample_world 3 (product "Pokemon Plush" [] (FFinite false 1 (-1))))).1 =
    [UI "main" (Columns [1; 4]);
     UI "col_img" (Write "🖼️");
     UI "col_info" (Markdown "### 3. Pokemon Plush");
     UI "col_info" (Columns [1; 1; 1; 1]);
     UI "d1" (Markdown "**Brand:** N/A");
     UI "d2" (Markdown "**Price:** $0.00");
     UI "d3" (Markdown "**Category:** N/A");
     UI "d4" (Markdown "**Score:** 0.500");
     UI "main" (Markdown "---")] /\
  (run (result_card sample_world 2
          (product "Hot Wheels Race Track"
             [("brand", PStr "nan"); ("category", PStr "nan")] (FFinite false 9 (-2))))).1 =
    [UI "main" (Columns [1; 4]);
     UI "col_img" (Write "🖼️");
     UI "col_info" (Markdown "### 2. Hot Wheels Race Track");
     UI "col_info" (Columns [1; 1; 1; 1]);
     UI "d1" (Markdown "**Brand:** N/A");
     UI "d2" (Markdown "**Price:** $0.00");
     UI "d3" (Markdown "**Category:** N/A");
     UI "d4" (Markdown "**Score:** 2.250");
     UI "main" (Markdown "---")].
Proof. split; by_evaluation. Qed.

(** A field that is present but null is not an absent one: the fall-backs
    of [get] do not apply to it. *)
Example null_fields_are_not_absent :
  brand_text (dict [("brand", PNone)]) = Ok PNone /\
  category_text (dict [("category", PNone)]) = Raise TypeError /\
  price_text (dict [("price", PNone)]) = Raise TypeError.
Proof. repeat split; by_evaluation. Qed.

(** * Further properties *)

(** ** Which steps call the collaborators *)

Lemma external_calls_app (h1 h2 : history) :
  external_calls (h1 ++ h2) = (external_calls h1 ++ external_calls h2)%list.
Proof. apply omap_app. Qed.

Lemma searches_external (h : history) : searches (external_calls h) = searches h.
Proof.
  unfold searches, encodes, external_calls.
  induction h as [|[text|index body|c x] h IH]; cbn; rewrite ?IH; reflexivity.
Qed.

Lemma encodes_external (h : history) : encodes (external_calls h) = encodes h.
Proof.
  unfold searches, encodes, external_calls.
  induction h as [|[text|index body|c x] h IH]; cbn; rewrite ?IH; reflexivity.
Qed.

Lemma ui_only_ret {A : Type} (a : A) : ui_only (ret a).
Proof. intros h. reflexivity. Qed.

Lemma ui_only_lift {A : Type} (r : result A) : ui_only (lift r).
Proof. intros h. reflexivity. Qed.

Lemma ui_only_emit (c : string) (x : ui_call) : ui_only (emit (UI c x)).
Proof.
  intros h. unfold emit. cbn [fst]. rewrite external_calls_app. cbn.
  apply app_nil_r.
Qed.

Lemma ui_only_bind {A B : Type} (m : M A) (f : A -> M B) :
  ui_only m -> (forall a, ui_only (f a)) -> ui_only (bind m f).
Proof.
  intros Hm Hf h. unfold bind. specialize (Hm h).
  destruct (m h) as [h1 [a|e]]; cbn [fst] in *.
  - rewrite (Hf a h1). exact Hm.
  - exact Hm.
Qed.

Lemma ui_only_for_enumerate (body : Z -> pyval -> M unit) (start : Z) (xs : list pyval) :
  (forall i x, ui_only (body i x)) -> ui_only (for_enumerate body start xs).
Proof.
  intros Hbody. revert start.
  induction xs as [|x xs IH]; intros start; cbn [for_enumerate].
  - apply ui_only_ret.
  - apply ui_only_bind; [apply Hbody|]. intros _. apply IH.
Qed.

Create HintDb ui_only.
#[local] Hint Resolve ui_only_ret ui_only_lift ui_only_emit : ui_only.

Ltac ui_only_steps :=
  repeat first
    [ solve [auto with ui_only]
    | apply ui_only_bind; [|intros ?]
    | apply ui_only_for_enumerate; intros ? ? ].

Lemma ui_only_image_cell (w : World) (s : pyval) : ui_only (image_cell w s).
Proof.
  unfold image_cell. ui_only_steps.
  - destruct (truthy a); auto with ui_only.
  - destruct a0; [|auto with ui_only].
    intros h. destruct (st_image_raises w h (py_str w a)); apply ui_only_emit.
Qed.

#[local] Hint Resolve ui_only_image_cell : ui_only.

Lemma ui_only_result_card (w : World) (i : Z) (hit : pyval) : ui_only (result_card w i hit).
Proof. unfold result_card. ui_only_steps. Qed.

#[local] Hint Resolve ui_only_result_card : ui_only.

Lemma searches_app (h1 h2 : list event) :
  searches (h1 ++ h2) = (searches h1 ++ searches h2)%list.
Proof. apply omap_app. Qed.

Lemma encodes_app (h1 h2 : list event) :
  encodes (h1 ++ h2) = (encodes h1 ++ encodes h2)%list.
Proof. apply omap_app. Qed.

(** The calls of a search function. *)
Lemma funcs_calls (w : World) (m : method) (q : string) (k : Z) (h : history) :
  external_calls (funcs w m q k h).1 =
    (external_calls h ++
     if uses_embedding m then
       match model_encode w h q with
       | Ok vec => [Encode q; Search INDEX_NAME (body_of m q vec k)]
       | Raise _ => [Encode q]
       end
     else [Search INDEX_NAME (bm25_body q k)])%list.
Proof.
  destruct (uses_embedding m) eqn:Hm.
  - rewrite embedding_search_run by exact Hm.
    destruct (model_encode w h q); cbn [fst];
      rewrite !external_calls_app, <- ?app_assoc; reflexivity.
  - destruct m; try discriminate Hm. cbn [funcs]. rewrite bm25_search_run.
    cbn [fst]. rewrite external_calls_app. reflexivity.
Qed.

Lemma funcs_ok_calls (w : World) (m : method) (q : string) (k : Z)
    (h h1 : history) (v : pyval) :
  funcs w m q k h = (h1, Ok v) ->
  exists vec,
    external_calls h1 =
      (external_calls h ++
       if uses_embedding m then [Encode q; Search INDEX_NAME (body_of m q vec k)]
       else [Search INDEX_NAME (body_of m q vec k)])%list.
Proof.
  intros Hrun. pose proof (funcs_calls w m q k h) as Hcalls.
  destruct (uses_embedding m) eqn:Hm.
  - pose proof (embedding_search_run m w q k h Hm) as Hsteps.
    rewrite Hrun in Hsteps, Hcalls. cbn [fst] in Hcalls.
    destruct (model_encode w h q) as [vec|e]; [|discriminate Hsteps].
    exists vec. exact Hcalls.
  - exists PNone. rewrite Hrun in Hcalls. cbn [fst] in Hcalls.
    destruct m; try discriminate Hm. exact Hcalls.
Qed.

(** A comparison column calls the collaborators as its search does. *)
Lemma column_calls (w : World) (col title : string) (search : string -> Z -> M pyval)
    (q : string) (k : Z) (h : history) :
  external_calls (comparison_column w col title search q k h).1 =
    external_calls (search q k (h ++ [UI col (Markdown title)])%list).1.
Proof.
  unfold comparison_column. unfold bind at 1, emit at 1. unfold bind at 1.
  destruct (search q k (h ++ [UI col (Markdown title)])%list) as [h1 [res|e]];
    [|reflexivity].
  cbn [fst].
  match goal with
  | |- external_calls (?c h1).1 = _ => assert (Hui : ui_only c) by ui_only_steps
  end.
  apply Hui.
Qed.

Lemma column_ok_search (w : World) (col title : string) (search : string -> Z -> M pyval)
    (q : string) (k : Z) (h h' : history) :
  comparison_column w col title search q k h = (h', Ok tt) ->
  exists h1 v, search q k (h ++ [UI col (Markdown title)])%list = (h1, Ok v).
Proof.
  unfold comparison_column. unfold bind at 1, emit. unfold bind at 1.
  destruct (search q k (h ++ [UI col (Markdown title)])%list) as [h1 [res|e]];
    [eauto|discriminate].
Qed.

Lemma column_ok_calls (w : World) (col title : string) (m : method)
    (q : string) (k : Z) (h h' : history) :
  comparison_column w col title (funcs w m) q k h = (h', Ok tt) ->
  exists vec,
    external_calls h' =
      (external_calls h ++
       if uses_embedding m then [Encode q; Search INDEX_NAME (body_of m q vec k)]
       else [Search INDEX_NAME (body_of m q vec k)])%list.
Proof.
  intros Hcol.
  destruct (column_ok_search w col title (funcs w m) q k h h' Hcol) as (h1 & v & Hsearch).
  destruct (funcs_ok_calls w m q k _ h1 v Hsearch) as [vec Hcalls].
  exists vec.
  pose proof (column_calls w col title (funcs w m) q k h) as Hsame.
  rewrite Hcol, Hsearch in Hsame. cbn [fst] in Hsame.
  rewrite Hsame, Hcalls, external_calls_app. cbn. rewrite app_nil_r. reflexivity.
Qed.

Lemma bind_ok {A B : Type} (m : M A) (f : A -> M B) (h h' : history) (b : B) :
  bind m f h = (h', Ok b) ->
  exists h1 a, m h = (h1, Ok a) /\ f a h1 = (h', Ok b).
Proof.
  unfold bind. destruct (m h) as [h1 [a|e]]; [eauto|discriminate].
Qed.

(** ** The requests of a comparison *)

(** X3. A comparison that runs to its end has called the collaborators in one
    fixed order, each strategy with the same text and the same [k]: the BM25
    request, then for Vector, Hybrid and Full Pipeline an embedding of the
    text followed by that strategy's request. *)
Theorem comparison_request_order (w : World) (q : string) (k : Z) (h h' : history) :
  comparison w q k h = (h', Ok tt) ->
  exists v1 v2 v3,
    external_calls h' =
      (external_calls h ++
       [Search INDEX_NAME (bm25_body q k);
        Encode q; Search INDEX_NAME (vector_body v1 k);
        Encode q; Search INDEX_NAME (hybrid_body q v2 k);
        Encode q; Search INDEX_NAME (full_pipeline_body q v3 k)])%list.
Proof.
  intros Hrun. unfold comparison in Hrun.
  apply bind_ok in Hrun as (h0 & [] & Htitle & Hrun).
  apply bind_ok in Hrun as (h0' & [] & Hcolumns & Hrun).
  apply bind_ok in Hrun as (h1 & [] & Hc1 & Hrun).
  apply bind_ok in Hrun as (h2 & [] & Hc2 & Hrun).
  apply bind_ok in Hrun as (h3 & [] & Hc3 & Hrun).
  apply bind_ok in Hrun as (h4 & [] & Hc4 & Hrun).
  apply bind_ok in Hrun as (h5 & [] & Hrule & Hrun).
  injection Htitle as <-. injection Hcolumns as <-.
  injection Hrule as <-. injection Hrun as <-.
  destruct (column_ok_calls w _ _ BM25Keyword q k _ _ Hc1) as [v0 H1].
  destruct (column_ok_calls w _ _ VectorSemantic q k _ _ Hc2) as [v1 H2].
  destruct (column_ok_calls w _ _ HybridRRF q k _ _ Hc3) as [v2 H3].
  destruct (column_ok_calls w _ _ FullPipeline q k _ _ Hc4) as [v3 H4].
  exists v1, v2, v3.
  rewrite !external_calls_app. cbn [external_calls omap]. 
  rewrite H4, H3, H2, H1, !external_calls_app. cbn.
  rewrite !app_nil_r, <- !app_assoc. reflexivity.
Qed.

Lemma comparison_request_order_witness :
  exists h' v1 v2 v3,
    comparison sample_world "lego" 2 [] = (h', Ok tt) /\
    external_calls h' =
      [Search INDEX_NAME (bm25_body "lego" 2);
       Encode "lego"; Search INDEX_NAME (vector_body v1 2);
       Encode "lego"; Search INDEX_NAME (hybrid_body "lego" v2 2);
       Encode "lego"; Search INDEX_NAME (full_pipeline_body "lego" v3 2)].
Proof.
  eexists. 
  destruct (comparison_request_order sample_world "lego" 2 []
              (comparison sample_world "lego" 2 []).1) as (v1 & v2 & v3 & Hcalls).
  - vm_compute. reflexivity.
  - exists v1, v2, v3. split; [vm_compute; reflexivity|]. exact Hcalls.
Defined.

(** ** How many calls a run makes *)

Lemma calls_at_most_ui_only {A : Type} (c : M A) : ui_only c -> calls_at_most 0 0 c.
Proof.
  intros Hui h. exists []. rewrite app_nil_r. split; [apply Hui|]. split; reflexivity.
Qed.

Lemma calls_at_most_weaken {A : Type} (s e s' e' : nat) (c : M A) :
  (s <= s')%nat -> (e <= e')%nat -> calls_at_most s e c -> calls_at_most s' e' c.
Proof.
  intros Hs He Hc h. destruct (Hc h) as (new & Hcalls & Hsn & Hen).
  exists new. split; [exact Hcalls|]. split; lia.
Qed.

Lemma calls_at_most_bind {A B : Type} (s1 e1 s2 e2 : nat) (m : M A) (f : A -> M B) :
  calls_at_most s1 e1 m ->
  (forall a, calls_at_most s2 e2 (f a)) ->
  calls_at_most (s1 + s2) (e1 + e2) (bind m f).
Proof.
  intros Hm Hf h. unfold bind.
  destruct (Hm h) as (new1 & Hcalls1 & Hs1 & He1).
  destruct (m h) as [h1 [a|e]]; cbn [fst] in *.
  - destruct (Hf a h1) as (new2 & Hcalls2 & Hs2 & He2).
    exists (new1 ++ new2)%list.
    rewrite Hcalls2, Hcalls1, <- app_assoc, searches_app, encodes_app, !length_app.
    split; [reflexivity|]. split; lia.
  - exists new1. split; [exact Hcalls1|]. split; lia.
Qed.

Lemma calls_at_most_funcs (w : World) (m : method) (q : string) (k : Z) :
  calls_at_most 1 (if uses_embedding m then 1 else 0) (funcs w m q k).
Proof.
  intros h. eexists. split; [apply funcs_calls|].
  destruct (uses_embedding m); [destruct (model_encode w h q)|]; cbn; split; lia.
Qed.

Lemma calls_at_most_column (w : World) (s e : nat) (col title : string)
    (search : string -> Z -> M pyval) (q : string) (k : Z) :
  calls_at_most s e (search q k) ->
  calls_at_most s e (comparison_column w col title search q k).
Proof.
  intros Hsearch h.
  destruct (Hsearch (h ++ [UI col (Markdown title)])%list) as (new & Hcalls & Hbounds).
  exists new. rewrite column_calls, Hcalls, external_calls_app. cbn.
  rewrite app_nil_r. split; [reflexivity|exact Hbounds].
Qed.

Lemma calls_at_most_comparison (w : World) (q : string) (k : Z) :
  calls_at_most 4 3 (comparison w q k).
Proof.
  unfold comparison.
  apply (calls_at_most_bind 0 0 4 3); [apply calls_at_most_ui_only, ui_only_emit|intros _].
  apply (calls_at_most_bind 0 0 4 3); [apply calls_at_most_ui_only, ui_only_emit|intros _].
  apply (calls_at_most_bind 1 0 3 3);
    [apply calls_at_most_column, (calls_at_most_funcs w BM25Keyword)|intros _].
  apply (calls_at_most_bind 1 1 2 2);
    [apply calls_at_most_column, (calls_at_most_funcs w VectorSemantic)|intros _].
  apply (calls_at_most_bind 1 1 1 1);
    [apply calls_at_most_column, (calls_at_most_funcs w HybridRRF)|intros _].
  apply (calls_at_most_bind 1 1 0 0);
    [apply calls_at_most_column, (calls_at_most_funcs w FullPipeline)|intros _].
  apply calls_at_most_ui_only. ui_only_steps.
Qed.

Lemma calls_at_most_single_method (w : World) (m : method) (q : string) (k : Z) :
  calls_at_most 1 1 (single_method w m q k).
Proof.
  unfold single_method.
  apply (calls_at_most_bind 0 0 1 1); [apply calls_at_most_ui_only, ui_only_emit|intros _].
  apply (calls_at_most_bind 1 1 0 0).
  - apply (calls_at_most_weaken 1 (if uses_embedding m then 1 else 0));
      [lia|destruct (uses_embedding m); lia|apply calls_at_most_funcs].
  - intros results. apply calls_at_most_ui_only. ui_only_steps.
    destruct (truthy results); ui_only_steps.
Qed.

(** X4. However it ends, one run of the search blocks sends the backend at
    most four requests in comparison mode and at most one otherwise, and asks
    the model for at most three embeddings in comparison mode and at most one
    otherwise: nothing is retried and rendering calls neither. *)
Theorem search_blocks_call_budget (w : World) (inp : Inputs) (h : history) :
  (length (searches (search_blocks w inp h).1) <=
     length (searches h) + (if comparison_mode inp then 4 else 1))%nat /\
  (length (encodes (search_blocks w inp h).1) <=
     length (encodes h) + (if comparison_mode inp then 3 else 1))%nat.
Proof.
  assert (Hbudget : calls_at_most (if comparison_mode inp then 4 else 1)
                      (if comparison_mode inp then 3 else 1) (search_blocks w inp)).
  { unfold search_blocks.
    destruct (comparison_mode inp); cbn [andb negb].
    - destruct (truthy (PStr (query inp))).
      + apply calls_at_most_comparison.
      + apply (calls_at_most_weaken 0 0); [lia|lia|].
        apply calls_at_most_ui_only, ui_only_ret.
    - match goal with |- context [if ?b then _ else _] => destruct b end.
      + apply calls_at_most_single_method.
      + apply (calls_at_most_weaken 0 0); [lia|lia|].
        apply calls_at_most_ui_only, ui_only_ret. }
  destruct (Hbudget h) as (new & Hcalls & Hs & He).
  rewrite <- (searches_external (search_blocks w inp h).1),
    <- (encodes_external (search_blocks w inp h).1), Hcalls.
  rewrite searches_app, encodes_app, !length_app, searches_external, encodes_external.
  split; lia.
Qed.

(** ** What a request asks to be returned *)

(** X1. The four strategies ask for the same projection of a document, the
    five display fields; neither the embedding nor the free text is among
    them. *)
Theorem source_projection (m : method) (q : string) (vec : pyval) (k : Z) :
  exists fields,
    body_of m q vec k !! "_source" = Some (PList (PStr <$> fields)) /\
    fields = ["product_name"; "brand"; "price"; "category"; "image_url"] /\
    ("embedding" ∉ fields) /\
    ("document_text" ∉ fields).
Proof.
  exists ["product_name"; "brand"; "price"; "category"; "image_url"].
  split; [destruct m; by_evaluation|]. split; [reflexivity|].
  split; intros Hin; repeat (apply elem_of_cons in Hin as [Heq|Hin]; [discriminate Heq|]);
    inversion Hin.
Qed.

(** ** How a search can fail *)

Lemma response_hits_raises (response : pyval) (e : exn) :
  response_hits response = Raise e -> e = KeyError "hits" \/ e = TypeError.
Proof.
  unfold response_hits, subscript. intros Hraise.
  destruct response as [| | | | | |d]; try (right; congruence).
  destruct (d !! "hits") as [outer|]; [|left; congruence].
  destruct outer as [| | | | | |d']; try (right; congruence).
  destruct (d' !! "hits"); [discriminate Hraise|left; congruence].
Qed.

(** X2. A search function raises nothing of its own making except while it
    unpacks the answer: an exception that ends a search is the model's (for
    the strategies that embed), the backend's, or the [KeyError "hits"] or
    [TypeError] of reading [response["hits"]["hits"]] from an answer of
    another shape. *)
Theorem search_exceptions (w : World) (m : method) (q : string) (k : Z)
    (h h' : history) (e : exn) :
  funcs w m q k h = (h', Raise e) ->
  (uses_embedding m = true /\ model_encode w h q = Raise e) \/
  (exists h0 body, client_search w h0 INDEX_NAME body = Raise e) \/
  (exists h0 body response,
     client_search w h0 INDEX_NAME body = Ok response /\
     response_hits response = Raise e /\
     (e = KeyError "hits" \/ e = TypeError)).
Proof.
  intros Hrun. destruct (uses_embedding m) eqn:Hm.
  - rewrite embedding_search_run in Hrun by exact Hm.
    destruct (model_encode w h q) as [vec|e0]; [|left; split; congruence].
    right.
    destruct (client_search w (h ++ [Encode q])%list INDEX_NAME (body_of m q vec k))
      as [response|e0] eqn:Hsearch.
    + right. exists (h ++ [Encode q])%list, (body_of m q vec k), response.
      assert (Hhits : response_hits response = Raise e) by congruence.
      split; [exact Hsearch|]. split; [exact Hhits|].
      exact (response_hits_raises response e Hhits).
    + left. exists (h ++ [Encode q])%list, (body_of m q vec k). congruence.
  - destruct m; try discriminate Hm. cbn [funcs] in Hrun.
    rewrite bm25_search_run in Hrun. right.
    destruct (client_search w h INDEX_NAME (bm25_body q k)) as [response|e0] eqn:Hsearch.
    + right. exists h, (bm25_body q k), response.
      assert (Hhits : response_hits response = Raise e) by congruence.
      split; [exact Hsearch|]. split; [exact Hhits|].
      exact (response_hits_raises response e Hhits).
    + left. exists h, (bm25_body q k). congruence.
Qed.

Lemma search_exceptions_witness :
  funcs shapeless_backend HybridRRF "lego" 3 [] =
    ([Encode "lego";
      Search INDEX_NAME
        (hybrid_body "lego"
           (PList [PFloat (FFinite false 1 (-2)); PFloat (FFinite true 3 (-4))]) 3)],
     Raise (KeyError "hits")) /\
  ((uses_embedding HybridRRF = true /\
    model_encode shapeless_backend [] "lego" = Raise (KeyError "hits")) \/
   (exists h0 body,
      client_search shapeless_backend h0 INDEX_NAME body = Raise (KeyError "hits")) \/
   (exists h0 body response,
      client_search shapeless_backend h0 INDEX_NAME body = Ok response /\
      response_hits response = Raise (KeyError "hits") /\
      (KeyError "hits" = KeyError "hits" \/ KeyError "hits" = TypeError))).
Proof.
  split; [vm_compute; reflexivity|].
  eapply (search_exceptions shapeless_backend HybridRRF "lego" 3 []).
  vm_compute. reflexivity.
Defined.

(** ** Texts cut for display *)






(** ** The image cell *)

(** X8. For a hit whose [image_url] is absent or a text, the image cell
    writes exactly one thing and never raises: the image, when the text
    starts with [http] and [st.image] does not raise; the placeholder in
    every other case, an exception of [st.image] included. *)
Theorem image_cell_total (w : World) (d : pydict) (h : history) :
  (d !! "image_url" = None \/ exists u, d !! "image_url" = Some (PStr u)) ->
  image_cell w (PDict d) h =
    ((h ++ [UI "col_img"
              match d !! "image_url" with
              | Some (PStr u) =>
                  if String.prefix "http" u && negb (st_image_raises w h u)
                  then Image u 120
                  else Write "🖼️"
              | _ => Write "🖼️"
              end])%list,
     Ok tt).
Proof.
  intros [Hnone|[u Hu]]; unfold image_cell, bind, lift, get, emit, ret.
  - rewrite Hnone. reflexivity.
  - rewrite Hu. cbn.
    destruct (String.eqb_spec u "") as [->|Hne]; cbn; [reflexivity|].
    destruct (String.prefix "http" u); cbn; [|reflexivity].
    destruct (st_image_raises w h u); reflexivity.
Qed.

Lemma image_cell_total_witness :
  image_cell broken_images
    (dict [("image_url", PStr "http://broken.example/toy.jpg")]) [] =
    ([UI "col_img" (Write "🖼️")], Ok tt) /\
  image_cell sample_world (dict [("image_url", PStr "https://img.example/toy.jpg")]) [] =
    ([UI "col_img" (Image "https://img.example/toy.jpg" 120)], Ok tt).
Proof.
  unfold dict. split.
  - rewrite (image_cell_total broken_images
               (list_to_map [("image_url", PStr "http://broken.example/toy.jpg")]) []).
    + reflexivity.
    + right. eexists. reflexivity.
  - rewrite (image_cell_total sample_world
               (list_to_map [("image_url", PStr "https://img.example/toy.jpg")]) []).
    + reflexivity.
    + right. eexists. reflexivity.
Defined.

(** ** Keys without a fall-back *)

(** X9. The fall-backs of a result card cover brand, price, category and
    image only.  A hit without [_source] ends the card with a [KeyError]
    before anything is written; one without [product_name] ends it after the
    image cell; one without [_score] ends it after the brand, price and
    category lines. *)
Theorem result_card_missing_keys (w : World) (i : Z) (hit : pydict) (h : history) :
  (hit !! "_source" = None ->
   result_card w i (PDict hit) h = (h, Raise (KeyError "_source"))) /\
  (forall d hi,
     hit !! "_source" = Some (PDict d) ->
     image_cell w (PDict d) (h ++ [UI "main" (Columns [1; 4])])%list = (hi, Ok tt) ->
     d !! "product_name" = None ->
     result_card w i (PDict hit) h = (hi, Raise (KeyError "product_name"))) /\
  (forall d hi name brand amount category,
     hit !! "_source" = Some (PDict d) ->
     image_cell w (PDict d) (h ++ [UI "main" (Columns [1; 4])])%list = (hi, Ok tt) ->
     d !! "product_name" = Some name ->
     brand_text (PDict d) = Ok brand ->
     price_text (PDict d) = Ok amount ->
     category_text (PDict d) = Ok category ->
     hit !! "_score" = None ->
     result_card w i (PDict hit) h =
       ((hi ++ [UI "col_info" (Markdown ("### " ++ pretty i ++ ". " ++ py_str w name));
                UI "col_info" (Columns [1; 1; 1; 1]);
                UI "d1" (Markdown ("**Brand:** " ++ py_str w brand));
                UI "d2" (Markdown ("**Price:** $" ++ amount));
                UI "d3" (Markdown ("**Category:** " ++ py_str w category))])%list,
        Raise (KeyError "_score"))).
Proof.
  split; [|split].
  - intros Hsource. unfold result_card, bind, lift, subscript. rewrite Hsource.
    reflexivity.
  - intros d hi Hsource Himage Hname.
    unfold result_card, bind, lift, emit, subscript.
    rewrite Hsource, Himage, Hname. reflexivity.
  - intros d hi name brand amount category Hsource Himage Hname Hbrand Hprice
      Hcategory Hscore.
    unfold result_card, bind, lift, emit, subscript.
    rewrite Hsource, Himage, Hname, Hbrand, Hprice, Hcategory, Hscore.
    rewrite <- !app_assoc. reflexivity.
Qed.

Lemma result_card_missing_keys_witness :
  result_card sample_world 1 (dict [("_score", PInt 1)]) [] =
    ([], Raise (KeyError "_source")) /\
  result_card sample_world 1 (dict [("_source", dict [("brand", PStr "LEGO")])]) [] =
    ([UI "main" (Columns [1; 4]); UI "col_img" (Write "🖼️")],
     Raise (KeyError "product_name")) /\
  result_card sample_world 1
    (dict [("_source", dict [("product_name", PStr "Pokemon Plush")])]) [] =
    ([UI "main" (Columns [1; 4]); UI "col_img" (Write "🖼️");
      UI "col_info" (Markdown "### 1. Pokemon Plush");
      UI "col_info" (Columns [1; 1; 1; 1]);
      UI "d1" (Markdown "**Brand:** N/A");
      UI "d2" (Markdown "**Price:** $0.00");
      UI "d3" (Markdown "**Category:** N/A")],
     Raise (KeyError "_score")).
Proof.
  unfold dict. split; [|split].
  - apply (result_card_missing_keys sample_world 1
             (list_to_map [("_score", PInt 1)]) []). reflexivity.
  - eapply (result_card_missing_keys sample_world 1
              (list_to_map [("_source", PDict (list_to_map [("brand", PStr "LEGO")]))]) []);
      reflexivity.
  - destruct (result_card_missing_keys sample_world 1
                (list_to_map
                   [("_source", PDict (list_to_map [("product_name", PStr "Pokemon Plush")]))])
                []) as (_ & _ & Hscore).
    rewrite (Hscore (list_to_map [("product_name", PStr "Pokemon Plush")])
               [UI "main" (Columns [1; 4]); UI "col_img" (Write "🖼️")]
               (PStr "Pokemon Plush") (PStr "N/A") "0.00" (PStr "N/A"));
      reflexivity.
Defined.

(** ** The example shortcuts *)





(** ** The lines of a comparison column *)





(** ** The head of the single-method view *)

Lemma extends_ret {A : Type} (a : A) : extends_history (ret a).
Proof. intros h. exists []. cbn. rewrite app_nil_r. reflexivity. Qed.

Lemma extends_lift {A : Type} (r : result A) : extends_history (lift r).
Proof. intros h. exists []. cbn. rewrite app_nil_r. reflexivity. Qed.

Lemma extends_emit (ev : event) : extends_history (emit ev).
Proof. intros h. exists [ev]. reflexivity. Qed.

Lemma extends_bind {A B : Type} (m : M A) (f : A -> M B) :
  extends_history m -> (forall a, extends_history (f a)) -> extends_history (bind m f).
Proof.
  intros Hm Hf h. unfold bind. destruct (Hm h) as [rest1 H1].
  destruct (m h) as [h1 [a|e]]; cbn [fst] in *.
  - destruct (Hf a h1) as [rest2 H2]. exists (rest1 ++ rest2)%list.
    rewrite H2, H1, app_assoc. reflexivity.
  - exists rest1. exact H1.
Qed.

Lemma extends_for_enumerate (body : Z -> pyval -> M unit) (start : Z) (xs : list pyval) :
  (forall i x, extends_history (body i x)) ->
  extends_history (for_enumerate body start xs).
Proof.
  intros Hbody. revert start.
  induction xs as [|x xs IH]; intros start; cbn [for_enumerate].
  - apply extends_ret.
  - apply extends_bind; [apply Hbody|]. intros _. apply IH.
Qed.

Lemma extends_image_cell (w : World) (s : pyval) : extends_history (image_cell w s).
Proof.
  unfold image_cell.
  apply extends_bind; [apply extends_lift|intros img].
  apply extends_bind.
  - destruct (truthy img); [apply extends_lift|apply extends_ret].
  - intros [|]; [|apply extends_emit].
    intros h. destruct (st_image_raises w h (py_str w img)); apply extends_emit.
Qed.

Lemma extends_result_card (w : World) (i : Z) (hit : pyval) :
  extends_history (result_card w i hit).
Proof.
  unfold result_card.
  repeat first
    [ apply extends_image_cell | apply extends_lift | apply extends_emit
    | apply extends_bind; [|intros ?] ].
Qed.

Lemma single_method_head (w : World) (m : method) (q : string) (k : Z)
    (h h1 : history) (hits : list pyval) :
  funcs w m q k (h ++ [UI "main" (Spinner "Searching...")])%list = (h1, Ok (PList hits)) ->
  single_method w m q k h =
    let head :=
      (h1 ++ [UI "main" (Columns [1; 1; 1; 1]);
              UI "col1" (Metric "⏱️ Latency" MElapsed);
              UI "col2" (Metric "📊 Results" (MInt (Z.of_nat (length hits))));
              UI "col3" (Metric "🔧 Method" (MStr (method_label m)));
              UI "col4" (Metric "🎯 Storage" (MStr "BBQ int8"));
              UI "main" (Markdown "---")])%list in
    match hits with
    | [] => (head, Ok tt)
    | _ => for_enumerate (result_card w) 1 hits head
    end.
Proof.
  intros Hrun.
  unfold single_method, bind, emit, lift, py_len, py_iter, ret. rewrite Hrun.
  cbn [truthy]. rewrite <- !app_assoc. cbn [app].
  destruct hits; reflexivity.
Qed.

(** X5. When the selected strategy returns a list of hits, the single-method
    view writes four metrics before any card: the latency, the number of hits
    returned, the name of the strategy and the storage label.  For an empty
    list that is all it writes, and the run ends without an exception. *)
Theorem single_method_metrics (w : World) (m : method) (q : string) (k : Z)
    (h h1 : history) (hits : list pyval) :
  funcs w m q k (h ++ [UI "main" (Spinner "Searching...")])%list = (h1, Ok (PList hits)) ->
  exists cards,
    (single_method w m q k h).1 =
      (h1 ++ [UI "main" (Columns [1; 1; 1; 1]);
              UI "col1" (Metric "⏱️ Latency" MElapsed);
              UI "col2" (Metric "📊 Results" (MInt (Z.of_nat (length hits))));
              UI "col3" (Metric "🔧 Method" (MStr (method_label m)));
              UI "col4" (Metric "🎯 Storage" (MStr "BBQ int8"));
              UI "main" (Markdown "---")] ++ cards)%list /\
    (hits = [] -> cards = [] /\ (single_method w m q k h).2 = Ok tt).
Proof.
  intros Hrun. rewrite (single_method_head w m q k h h1 hits Hrun). cbv zeta.
  destruct hits as [|hit hits].
  - exists []. cbn [fst snd]. rewrite app_nil_r.
    split; [reflexivity|]. intros _. split; reflexivity.
  - match goal with
    | |- context [for_enumerate ?body ?start ?xs ?h0] =>
        destruct (extends_for_enumerate body start xs
                    (extends_result_card w) h0) as [cards Hcards]
    end.
    exists cards. rewrite Hcards, <- app_assoc.
    split; [reflexivity|]. intros Hnil. discriminate Hnil.
Qed.

Lemma single_method_metrics_witness :
  exists cards,
    (single_method sample_world BM25Keyword "lego" 0 []).1 =
      ([UI "main" (Spinner "Searching..."); Search INDEX_NAME (bm25_body "lego" 0)] ++
       [UI "main" (Columns [1; 1; 1; 1]);
        UI "col1" (Metric "⏱️ Latency" MElapsed);
        UI "col2" (Metric "📊 Results" (MInt 0));
        UI "col3" (Metric "🔧 Method" (MStr "BM25 Keyword"));
        UI "col4" (Metric "🎯 Storage" (MStr "BBQ int8"));
        UI "main" (Markdown "---")] ++ cards)%list /\
    ([] = @nil pyval ->
     cards = [] /\ (single_method sample_world BM25Keyword "lego" 0 []).2 = Ok tt).
Proof.
  apply (single_method_metrics sample_world BM25Keyword "lego" 0 []
           [UI "main" (Spinner "Searching..."); Search INDEX_NAME (bm25_body "lego" 0)] []).
  vm_compute. reflexivity.
Defined.
